(** * Dify on AWS: the ECS service constructs

    A shallow embedding of [lib/constructs/dify-services/api.ts] (the
    [ApiService] construct) and of the [ConsoleService] construct that
    follows it in the same source listing.  Both constructors are one
    linear pass that assembles records and hands them to the CDK; the
    embedding keeps that shape: every [new X(this, id, props)] becomes a
    record built from the same properties, every mutating method call
    ([addContainer], [addMountPoints], [addContainerDependencies],
    [addToPrincipalPolicy]) becomes a function from the task definition to
    the updated task definition, threaded through a chain of [let]s in the
    order of the source, and every call on a collaborator ([grantReadWrite],
    [allowToDefaultPort], [addEcsService]) is recorded in the result.

    JavaScript objects used as string-keyed maps ([environment], [secrets],
    [buildArgs]) are [gmap string _]; an object literal is the left-to-right
    fold of its members, so that a later member or spread overrides an
    earlier one. *)

From Stdlib Require Import Strings.String NArith Decimal DecimalString DecimalN.
From stdpp Require Import gmap strings list fin_maps.

Local Open Scope string_scope.
Local Open Scope N_scope.

(** ** JavaScript values used by the constructors *)

(** JavaScript numbers that the constructors use are non-negative integers
    (ports, sizes, weights, array indices): they are modelled in [N]. *)

(** [n.toString()] for a non-negative integer [n]: its decimal digits.
    JavaScript prints every digit of an integer below [2 ^ 53]; above, a
    number is rounded, and from [10 ^ 21] on it is printed with an
    exponent.  The definition is [toString] below [2 ^ 53] only. *)
Definition Number_toString (n : N) : string :=
  NilEmpty.string_of_uint (N.to_uint n).

(** [Array(len).fill(v)]. *)
Definition Array_fill {A} (len : nat) (v : A) : list A := replicate len v.

(** [arr.map((x, i) => f x i)]. *)
Definition Array_map {A B} (f : A -> N -> B) (arr : list A) : list B :=
  imap (fun i x => f x (N.of_nat i)) arr.

(** [arr.join(sep)]. *)
Definition Array_join (sep : string) (arr : list string) : string :=
  String.concat sep arr.

(** The one-character string holding a double quote (code 34). *)
Definition doubleQuote : string :=
  String (Ascii.Ascii false true false false false true false false)
    EmptyString.

(** A member of an object literal: [key: value] or [...obj]. *)
Inductive Member (V : Type) : Type :=
| KeyValue (key : string) (value : V)
| Spread (obj : gmap string V).
Arguments KeyValue {V} key value.
Arguments Spread {V} obj.

Definition define {V} (o : gmap string V) (m : Member V) : gmap string V :=
  match m with
  | KeyValue k v => <[k:=v]> o
  | Spread s => s ∪ o
  end.

(** [{ m1, m2, ... }]: members are defined in source order, a later
    definition of a key replacing an earlier one. *)
Definition objectLiteral {V} (members : list (Member V)) : gmap string V :=
  foldl define ∅ members.

Notation "k ::= v" := (KeyValue k v) (at level 60, no associativity).

(** Member [m] gives key [k] the value [v]. *)
Definition defines {V} (k : string) (v : V) (m : Member V) : Prop :=
  match m with
  | KeyValue k' v' => k' = k ∧ v' = v
  | Spread s => s !! k = Some v
  end.

(** ** Handles of the collaborating constructs *)

Record Stack := { region : string }.

(** A node of the construct tree: the stack that owns it and its path. *)
Record Construct := { stackOf : Stack; path : list string }.

Definition child (scope : Construct) (id : string) : Construct :=
  {| stackOf := stackOf scope; path := path scope ++ [id] |}.

Record ISecret := { secretNode : Construct }.
Record IStringParameter := { parameterNode : Construct }.
Record IRole := { roleNode : Construct }.
Record IRepository := { repositoryName : string }.
Record ICluster := { clusterName : string }.
Record IAlb := { url : string }.
Record IBucket := { bucketName : string; bucketStack : Stack }.

(** The [secret] of a database and the [secret] and [port] of a cache are
    prefixed with the handle they belong to. *)
Record Postgres := {
  pg_secret : ISecret;
  databaseName : string;
  pgVectorDatabaseName : string
}.

Record Redis := {
  endpoint : string;
  redis_port : N;
  redis_secret : ISecret;
  brokerUrl : IStringParameter
}.

(** ** The slice of [aws-cdk-lib] the constructors call *)

(** [ecs.Secret]: the value type of a container's [secrets] map. *)
Inductive EcsSecret : Type :=
| fromSecretsManager (secret : ISecret) (field : option string)
| fromSsmParameter (parameter : IStringParameter).

Inductive Platform := LINUX_AMD64 | LINUX_ARM64.

(** [fromAsset] takes the directory as the segments that the source joins
    to [__dirname]. *)
Inductive ContainerImage : Type :=
| fromRegistry (name : string)
| fromEcrRepository (repository : IRepository) (tag : string)
| fromAsset (directory : list string) (platform : Platform)
            (buildArgs : option (gmap string string)).

Inductive LogDriver := awsLogs (streamPrefix : string).

Inductive Duration := seconds (amount : N).

Record HealthCheck := {
  hc_command : list string;
  interval : Duration;
  startPeriod : Duration;
  timeout : Duration;
  retries : N
}.

Record PortMapping := { containerPort : N }.

(** The properties object passed to [taskDefinition.addContainer]; an
    absent property is [None]. *)
Record ContainerDefinitionOptions := {
  image : ContainerImage;
  environment : option (gmap string string);
  secrets : option (gmap string EcsSecret);
  logging : option LogDriver;
  portMappings : option (list PortMapping);
  healthCheck : option HealthCheck;
  essential : option bool;
  entryPoint : option (list string);
  command : option (list string)
}.

Record MountPoint := {
  containerPath : string;
  sourceVolume : string;
  readOnly : bool
}.

Inductive ContainerDependencyCondition := START | COMPLETE | SUCCESS | HEALTHY.

(** A dependency names its target container; the source passes the
    container object, which the task definition holds under that name. *)
Record ContainerDependency := {
  container : string;
  condition : ContainerDependencyCondition
}.

Record ContainerDefinition := {
  containerName : string;
  options : ContainerDefinitionOptions;
  mountPoints : list MountPoint;
  containerDependencies : list ContainerDependency
}.

Inductive CpuArchitecture := X86_64 | ARM64.

Record Volume := { name : string }.

Record PolicyStatement := {
  actions : list string;
  resources : list string
}.

Record FargateTaskDefinition := {
  taskNode : Construct;
  cpu : N;
  memoryLimitMiB : N;
  cpuArchitecture : CpuArchitecture;
  volumes : list Volume;
  containers : list ContainerDefinition;
  taskRolePolicy : list PolicyStatement
}.

Definition taskRole (td : FargateTaskDefinition) : IRole :=
  {| roleNode := child (taskNode td) "TaskRole" |}.

(** [new FargateTaskDefinition(scope, id, { cpu, memoryLimitMiB,
    runtimePlatform: { cpuArchitecture }, volumes })]. *)
Definition new_FargateTaskDefinition (scope : Construct) (id : string)
    (cpu memoryLimitMiB : N) (arch : CpuArchitecture)
    (volumes : list Volume) : FargateTaskDefinition :=
  {| taskNode := child scope id;
     cpu := cpu;
     memoryLimitMiB := memoryLimitMiB;
     cpuArchitecture := arch;
     volumes := volumes;
     containers := [];
     taskRolePolicy := [] |}.

Definition withContainers (cs : list ContainerDefinition)
    (td : FargateTaskDefinition) : FargateTaskDefinition :=
  {| taskNode := taskNode td;
     cpu := cpu td;
     memoryLimitMiB := memoryLimitMiB td;
     cpuArchitecture := cpuArchitecture td;
     volumes := volumes td;
     containers := cs;
     taskRolePolicy := taskRolePolicy td |}.

(** [taskDefinition.addContainer(id, options)]: the new container joins the
    task definition with no mount point and no dependency. *)
Definition addContainer (id : string) (opts : ContainerDefinitionOptions)
    (td : FargateTaskDefinition) : FargateTaskDefinition :=
  withContainers
    (containers td ++
       [ {| containerName := id;
            options := opts;
            mountPoints := [];
            containerDependencies := [] |} ])
    td.

Definition updateContainer (id : string)
    (f : ContainerDefinition -> ContainerDefinition)
    (td : FargateTaskDefinition) : FargateTaskDefinition :=
  withContainers
    (map (fun c => if String.eqb (containerName c) id then f c else c)
       (containers td))
    td.

(** [container.addMountPoints(mp)] on the container held as [id]. *)
Definition addMountPoints (id : string) (mp : MountPoint)
    (td : FargateTaskDefinition) : FargateTaskDefinition :=
  updateContainer id
    (fun c => {| containerName := containerName c;
                 options := options c;
                 mountPoints := mountPoints c ++ [mp];
                 containerDependencies := containerDependencies c |})
    td.

(** [container.addContainerDependencies(dep)] on the container held as [id]. *)
Definition addContainerDependencies (id : string) (dep : ContainerDependency)
    (td : FargateTaskDefinition) : FargateTaskDefinition :=
  updateContainer id
    (fun c => {| containerName := containerName c;
                 options := options c;
                 mountPoints := mountPoints c;
                 containerDependencies := containerDependencies c ++ [dep] |})
    td.

(** [taskDefinition.taskRole.addToPrincipalPolicy(statement)]. *)
Definition addToPrincipalPolicy (statement : PolicyStatement)
    (td : FargateTaskDefinition) : FargateTaskDefinition :=
  {| taskNode := taskNode td;
     cpu := cpu td;
     memoryLimitMiB := memoryLimitMiB td;
     cpuArchitecture := cpuArchitecture td;
     volumes := volumes td;
     containers := containers td;
     taskRolePolicy := taskRolePolicy td ++ [statement] |}.

(** The container a task definition holds under [id]. *)
Definition findContainer (id : string) (td : FargateTaskDefinition)
    : option ContainerDefinition :=
  find (fun c => String.eqb (containerName c) id) (containers td).

(** [new Secret(scope, id, { generateSecretString: { passwordLength } })]. *)
Record GeneratedSecret := {
  generated : ISecret;
  passwordLength : N
}.

Definition new_Secret (scope : Construct) (id : string) (len : N)
    : GeneratedSecret :=
  {| generated := {| secretNode := child scope id |};
     passwordLength := len |}.

Record CapacityProviderStrategy := {
  capacityProvider : string;
  weight : N
}.

(** [new ecs.FargateService(scope, id, props)]; an absent property is
    [None].  The properties [cluster] and [taskDefinition] carry a trailing
    underscore, their names being those of fields declared below. *)
Record FargateService := {
  serviceNode : Construct;
  cluster_ : ICluster;
  taskDefinition_ : FargateTaskDefinition;
  capacityProviderStrategies : list CapacityProviderStrategy;
  enableExecuteCommand : option bool;
  minHealthyPercent : option N;
  desiredCount : option N
}.

(** [bucket.grantReadWrite(role)]. *)
Record BucketGrant := {
  grantedBucket : IBucket;
  grantee : IRole
}.

Inductive Connectable : Type :=
| ServicePeer (service : Construct)
| PostgresPeer (pg : Postgres)
| RedisPeer (rd : Redis).

(** The two calls the constructors make on [connections]:
    [a.connections.allowToDefaultPort(b)] and
    [b.connections.allowDefaultPortFrom(a)]. *)
Inductive ConnectionRule : Type :=
| allowToDefaultPort (self other : Connectable)
| allowDefaultPortFrom (self other : Connectable).

(** [alb.addEcsService(id, service, port, healthCheckPath, paths)]. *)
Record AlbEcsService := {
  alb_id : string;
  alb_service : Construct;
  alb_port : N;
  alb_healthCheckPath : string;
  alb_paths : list string
}.

(** [new CfnOutput(scope, id, { value })]. *)
Record CfnOutput := {
  output_id : string;
  output_value : string
}.

(** Everything a constructor declares or calls, in source order within
    each list. *)
Record Resources := {
  taskDefinition : FargateTaskDefinition;
  newSecrets : list GeneratedSecret;
  service : FargateService;
  bucketGrants : list BucketGrant;
  connections : list ConnectionRule;
  albServices : list AlbEcsService;
  outputs : list CfnOutput
}.

(** ** [api.ts]: the primary service *)

Module api.

Record ApiServiceProps := {
  cluster : ICluster;
  alb : IAlb;
  postgres : Postgres;
  redis : Redis;
  storageBucket : IBucket;
  imageTag : string;
  sandboxImageTag : string;
  allowAnySyscalls : bool;
  debug : option bool
}.

Definition port : N := 5001.
Definition volumeName : string := "sandbox".

(** The paths handed to the load balancer, before the wildcard forms are
    appended. *)
Definition paths : list string := ["/console/api"; "/api"; "/v1"; "/files"].

Definition routedPaths : list string :=
  paths ++ map (fun p => p ++ "/*") paths.

(** The value of [ALLOWED_SYSCALLS]:
    [Array(457).fill(0).map((_, i) => i).join(',')]. *)
Definition allowedSyscalls : string :=
  Array_join ","
    (map Number_toString (Array_map (fun _ i => i) (Array_fill 457%nat 0))).

Definition pythonLibPath : string :=
  Array_join ","
    [ "/usr/local/lib/python3.10";
      "/usr/lib/python3.10";
      "/usr/lib/python3";
      "/usr/lib/x86_64-linux-gnu";
      "/etc/ssl/certs/ca-certificates.crt";
      "/etc/nsswitch.conf";
      "/etc/hosts";
      "/etc/resolv.conf";
      "/run/systemd/resolve/stub-resolv.conf";
      "/run/resolvconf/resolv.conf" ].

Section Containers.
Variable props : ApiServiceProps.
Variable encryptionSecret : ISecret.

Let debug_ : bool := default false (debug props).

Definition MainOptions : ContainerDefinitionOptions :=
  {| image := fromRegistry ("langgenius/dify-api:" ++ imageTag props);
     environment := Some (objectLiteral
       [ "MODE" ::= "api";
         "LOG_LEVEL" ::= (if debug_ then "DEBUG" else "ERROR");
         "DEBUG" ::= (if debug_ then "true" else "false");
         "CONSOLE_WEB_URL" ::= url (alb props);
         "CONSOLE_API_URL" ::= url (alb props);
         "SERVICE_API_URL" ::= url (alb props);
         "APP_WEB_URL" ::= url (alb props);
         "SQLALCHEMY_POOL_PRE_PING" ::= "True";
         "REDIS_HOST" ::= endpoint (redis props);
         "REDIS_PORT" ::= Number_toString (redis_port (redis props));
         "REDIS_USE_SSL" ::= "true";
         "REDIS_DB" ::= "0";
         "WEB_API_CORS_ALLOW_ORIGINS" ::= "*";
         "CONSOLE_CORS_ALLOW_ORIGINS" ::= "*";
         "STORAGE_TYPE" ::= "s3";
         "S3_BUCKET_NAME" ::= bucketName (storageBucket props);
         "S3_REGION" ::= region (bucketStack (storageBucket props));
         "DB_DATABASE" ::= databaseName (postgres props);
         "VECTOR_STORE" ::= "pgvector";
         "PGVECTOR_DATABASE" ::= pgVectorDatabaseName (postgres props);
         "CODE_EXECUTION_ENDPOINT" ::= "http://localhost:8194";
         "PLUGIN_DAEMON_URL" ::= "http://localhost:5002" ]);
     logging := Some (awsLogs "log");
     portMappings := Some [ {| containerPort := port |} ];
     secrets := Some (objectLiteral
       [ "DB_USERNAME" ::= fromSecretsManager (pg_secret (postgres props)) (Some "username");
         "DB_HOST" ::= fromSecretsManager (pg_secret (postgres props)) (Some "host");
         "DB_PORT" ::= fromSecretsManager (pg_secret (postgres props)) (Some "port");
         "DB_PASSWORD" ::= fromSecretsManager (pg_secret (postgres props)) (Some "password");
         "PGVECTOR_USER" ::= fromSecretsManager (pg_secret (postgres props)) (Some "username");
         "PGVECTOR_HOST" ::= fromSecretsManager (pg_secret (postgres props)) (Some "host");
         "PGVECTOR_PORT" ::= fromSecretsManager (pg_secret (postgres props)) (Some "port");
         "PGVECTOR_PASSWORD" ::= fromSecretsManager (pg_secret (postgres props)) (Some "password");
         "REDIS_PASSWORD" ::= fromSecretsManager (redis_secret (redis props)) None;
         "CELERY_BROKER_URL" ::= fromSsmParameter (brokerUrl (redis props));
         "SECRET_KEY" ::= fromSecretsManager encryptionSecret None;
         "CODE_EXECUTION_API_KEY" ::= fromSecretsManager encryptionSecret None;
         "INNER_API_KEY_FOR_PLUGIN" ::= fromSecretsManager encryptionSecret None;
         "PLUGIN_API_KEY" ::= fromSecretsManager encryptionSecret None ]);
     healthCheck := Some
       {| hc_command :=
            [ "CMD-SHELL";
              "curl -f http://localhost:" ++ Number_toString port
                ++ "/health || exit 1" ];
          interval := seconds 15;
          startPeriod := seconds 30;
          timeout := seconds 5;
          retries := 5 |};
     essential := None;
     entryPoint := None;
     command := None |}.

Definition WorkerOptions : ContainerDefinitionOptions :=
  {| image := fromRegistry ("langgenius/dify-api:" ++ imageTag props);
     environment := Some (objectLiteral
       [ "MODE" ::= "worker";
         "LOG_LEVEL" ::= (if debug_ then "DEBUG" else "ERROR");
         "DEBUG" ::= (if debug_ then "true" else "false");
         "MIGRATION_ENABLED" ::= "true";
         "SQLALCHEMY_POOL_PRE_PING" ::= "True";
         "REDIS_HOST" ::= endpoint (redis props);
         "REDIS_PORT" ::= Number_toString (redis_port (redis props));
         "REDIS_USE_SSL" ::= "true";
         "REDIS_DB" ::= "0";
         "STORAGE_TYPE" ::= "s3";
         "S3_BUCKET_NAME" ::= bucketName (storageBucket props);
         "S3_REGION" ::= region (bucketStack (storageBucket props));
         "DB_DATABASE" ::= databaseName (postgres props);
         "VECTOR_STORE" ::= "pgvector";
         "PGVECTOR_DATABASE" ::= pgVectorDatabaseName (postgres props);
         "PLUGIN_API_URL" ::= "http://localhost:5002" ]);
     logging := Some (awsLogs "log");
     portMappings := None;
     secrets := Some (objectLiteral
       [ "DB_USERNAME" ::= fromSecretsManager (pg_secret (postgres props)) (Some "username");
         "DB_HOST" ::= fromSecretsManager (pg_secret (postgres props)) (Some "host");
         "DB_PORT" ::= fromSecretsManager (pg_secret (postgres props)) (Some "port");
         "DB_PASSWORD" ::= fromSecretsManager (pg_secret (postgres props)) (Some "password");
         "PGVECTOR_USER" ::= fromSecretsManager (pg_secret (postgres props)) (Some "username");
         "PGVECTOR_HOST" ::= fromSecretsManager (pg_secret (postgres props)) (Some "host");
         "PGVECTOR_PORT" ::= fromSecretsManager (pg_secret (postgres props)) (Some "port");
         "PGVECTOR_PASSWORD" ::= fromSecretsManager (pg_secret (postgres props)) (Some "password");
         "REDIS_PASSWORD" ::= fromSecretsManager (redis_secret (redis props)) None;
         "CELERY_BROKER_URL" ::= fromSsmParameter (brokerUrl (redis props));
         "SECRET_KEY" ::= fromSecretsManager encryptionSecret None;
         "PLUGIN_API_KEY" ::= fromSecretsManager encryptionSecret None ]);
     healthCheck := None;
     essential := None;
     entryPoint := None;
     command := None |}.

Definition SandboxFileMountOptions : ContainerDefinitionOptions :=
  {| image := fromAsset ["docker"; "sandbox"] LINUX_AMD64 None;
     environment := None;
     logging := None;
     portMappings := None;
     secrets := None;
     healthCheck := None;
     essential := Some false;
     entryPoint := None;
     command := None |}.

Definition SandboxOptions : ContainerDefinitionOptions :=
  {| image := fromRegistry ("langgenius/dify-sandbox:" ++ sandboxImageTag props);
     environment := Some (objectLiteral
       [ "GIN_MODE" ::= "release";
         "WORKER_TIMEOUT" ::= "15";
         "ENABLE_NETWORK" ::= "true";
         Spread (if allowAnySyscalls props
                 then objectLiteral [ "ALLOWED_SYSCALLS" ::= allowedSyscalls ]
                 else objectLiteral []);
         "PYTHON_LIB_PATH" ::= pythonLibPath ]);
     logging := Some (awsLogs "log");
     portMappings := Some [ {| containerPort := 8194 |} ];
     secrets := Some (objectLiteral
       [ "API_KEY" ::= fromSecretsManager encryptionSecret None ]);
     healthCheck := None;
     essential := None;
     entryPoint := None;
     command := None |}.

Definition PluginDaemonOptions : ContainerDefinitionOptions :=
  {| image := fromRegistry "langgenius/dify-plugin-daemon:0.0.1-local";
     environment := Some (objectLiteral
       [ "REDIS_HOST" ::= endpoint (redis props);
         "REDIS_PORT" ::= Number_toString (redis_port (redis props));
         "REDIS_USE_SSL" ::= "true";
         "REDIS_DB" ::= "0";
         "VECTOR_STORE" ::= "pgvector";
         "PGVECTOR_DATABASE" ::= pgVectorDatabaseName (postgres props);
         "CODE_EXECUTION_ENDPOINT" ::= "http://localhost:8194";
         "DB_DATABASE" ::= "dify_plugin";
         "SERVER_PORT" ::= "5002";
         "PLUGIN_STORAGE_TYPE" ::= "local";
         "PLUGIN_STORAGE_OSS_BUCKET" ::= bucketName (storageBucket props);
         "MAX_PLUGIN_PACKAGE_SIZE" ::= "52428800";
         "DIFY_INNER_API_URL" ::= "http://localhost:5001";
         "PLUGIN_WORKING_PATH" ::= "/app/storage/cwd";
         "FORCE_VERIFYING_SIGNATURE" ::= "true" ]);
     secrets := Some (objectLiteral
       [ "DB_USERNAME" ::= fromSecretsManager (pg_secret (postgres props)) (Some "username");
         "DB_HOST" ::= fromSecretsManager (pg_secret (postgres props)) (Some "host");
         "DB_PORT" ::= fromSecretsManager (pg_secret (postgres props)) (Some "port");
         "DB_PASSWORD" ::= fromSecretsManager (pg_secret (postgres props)) (Some "password");
         "PGVECTOR_USER" ::= fromSecretsManager (pg_secret (postgres props)) (Some "username");
         "PGVECTOR_HOST" ::= fromSecretsManager (pg_secret (postgres props)) (Some "host");
         "PGVECTOR_PORT" ::= fromSecretsManager (pg_secret (postgres props)) (Some "port");
         "PGVECTOR_PASSWORD" ::= fromSecretsManager (pg_secret (postgres props)) (Some "password");
         "REDIS_PASSWORD" ::= fromSecretsManager (redis_secret (redis props)) None;
         "CELERY_BROKER_URL" ::= fromSsmParameter (brokerUrl (redis props));
         "SECRET_KEY" ::= fromSecretsManager encryptionSecret None;
         "CODE_EXECUTION_API_KEY" ::= fromSecretsManager encryptionSecret None;
         "DIFY_INNER_API_KEY" ::= fromSecretsManager encryptionSecret None;
         "SERVER_KEY" ::= fromSecretsManager encryptionSecret None ]);
     logging := Some (awsLogs "log");
     portMappings := Some [ {| containerPort := 5002 |} ];
     healthCheck := None;
     essential := None;
     entryPoint := None;
     command := None |}.

Definition ExternalKnowledgeBaseAPIOptions : ContainerDefinitionOptions :=
  {| image := fromAsset ["docker"; "external-knowledge-api"] LINUX_AMD64
                (Some (objectLiteral
                   [ "DIFY_VERSION" ::= sandboxImageTag props ]));
     environment := Some (objectLiteral
       [ "BEARER_TOKEN" ::= "dummy-key";
         "BEDROCK_REGION" ::= "us-west-2" ]);
     logging := Some (awsLogs "log");
     portMappings := Some [ {| containerPort := 8000 |} ];
     secrets := None;
     healthCheck := None;
     essential := None;
     entryPoint := None;
     command := None |}.
End Containers.

(** The Bedrock statement attached to the task role. *)
Definition bedrockStatement : PolicyStatement :=
  {| actions := [ "bedrock:InvokeModel";
                  "bedrock:InvokeModelWithResponseStream";
                  "bedrock:Rerank";
                  "bedrock:Retrieve" ];
     resources := [ "*" ] |}.

(** [new ApiService(scope, id, props)]. *)
Definition ApiService (scope : Construct) (id : string)
    (props : ApiServiceProps) : Resources :=
  let this := child scope id in
  let taskDefinition :=
    new_FargateTaskDefinition this "Task" 1024 2048 X86_64
      [ {| name := volumeName |} ] in
  let encryptionSecret := new_Secret this "EncryptionSecret" 42 in
  let key := generated encryptionSecret in
  let taskDefinition := addContainer "Main" (MainOptions props key) taskDefinition in
  let taskDefinition := addContainer "Worker" (WorkerOptions props key) taskDefinition in
  let sandboxFileContainer := "SandboxFileMount" in
  let taskDefinition :=
    addContainer sandboxFileContainer SandboxFileMountOptions taskDefinition in
  let sandboxContainer := "Sandbox" in
  let taskDefinition :=
    addContainer sandboxContainer (SandboxOptions props key) taskDefinition in
  let taskDefinition :=
    addMountPoints sandboxFileContainer
      {| containerPath := "/dependencies";
         sourceVolume := volumeName;
         readOnly := false |} taskDefinition in
  let taskDefinition :=
    addMountPoints sandboxContainer
      {| containerPath := "/dependencies";
         sourceVolume := volumeName;
         readOnly := true |} taskDefinition in
  let taskDefinition :=
    addContainerDependencies sandboxContainer
      {| container := sandboxFileContainer;
         condition := COMPLETE |} taskDefinition in
  let taskDefinition :=
    addContainer "PluginDaemon" (PluginDaemonOptions props key) taskDefinition in
  let taskDefinition :=
    addContainer "ExternalKnowledgeBaseAPI"
      (ExternalKnowledgeBaseAPIOptions props) taskDefinition in
  let grant :=
    {| grantedBucket := storageBucket props;
       grantee := taskRole taskDefinition |} in
  let taskDefinition := addToPrincipalPolicy bedrockStatement taskDefinition in
  let service :=
    {| serviceNode := child this "FargateService";
       cluster_ := cluster props;
       taskDefinition_ := taskDefinition;
       capacityProviderStrategies :=
         [ {| capacityProvider := "FARGATE"; weight := 0 |};
           {| capacityProvider := "FARGATE_SPOT"; weight := 1 |} ];
       enableExecuteCommand := Some true;
       minHealthyPercent := None;
       desiredCount := None |} in
  {| taskDefinition := taskDefinition;
     newSecrets := [ encryptionSecret ];
     service := service;
     bucketGrants := [ grant ];
     connections :=
       [ allowToDefaultPort (ServicePeer (serviceNode service))
           (PostgresPeer (postgres props));
         allowToDefaultPort (ServicePeer (serviceNode service))
           (RedisPeer (redis props)) ];
     albServices :=
       [ {| alb_id := "Api";
            alb_service := serviceNode service;
            alb_port := port;
            alb_healthCheckPath := "/health";
            alb_paths := routedPaths |} ];
     outputs := [] |}.

End api.

(** ** The console service *)

Module console.

Section ConsoleService.
(** [EnvironmentProps['additionalEnvironmentVariables']], the two helpers
    of [./environment-variables] and the deploy-time name of a service
    are declared outside this source file: the constructor is embedded
    over them. *)
Variable AdditionalEnvironmentVariables : Type.
Variable getAdditionalEnvironmentVariables :
  Construct -> string -> AdditionalEnvironmentVariables -> gmap string string.
Variable getAdditionalSecretVariables :
  Construct -> string -> AdditionalEnvironmentVariables -> gmap string EcsSecret.
Variable serviceName : FargateService -> string.

Record ConsoleServiceProps := {
  cluster : ICluster;
  alb : IAlb;
  postgres : Postgres;
  redis : Redis;
  storageBucket : IBucket;
  imageTag : string;
  customRepository : option IRepository;
  additionalEnvironmentVariables : AdditionalEnvironmentVariables
}.

Definition MainOptions (this : Construct) (props : ConsoleServiceProps)
    : ContainerDefinitionOptions :=
  {| image :=
       match customRepository props with
       | Some repository =>
           fromEcrRepository repository ("dify-api_" ++ imageTag props)
       | None => fromRegistry ("langgenius/dify-api:" ++ imageTag props)
       end;
     environment := Some (objectLiteral
       [ "MODE" ::= "api";
         "CONSOLE_WEB_URL" ::= url (alb props);
         "CONSOLE_API_URL" ::= url (alb props);
         "SERVICE_API_URL" ::= url (alb props);
         "APP_WEB_URL" ::= url (alb props);
         "SQLALCHEMY_POOL_PRE_PING" ::= "True";
         "REDIS_HOST" ::= endpoint (redis props);
         "REDIS_PORT" ::= Number_toString (redis_port (redis props));
         "REDIS_USE_SSL" ::= "true";
         "REDIS_DB" ::= "0";
         "WEB_API_CORS_ALLOW_ORIGINS" ::= "*";
         "CONSOLE_CORS_ALLOW_ORIGINS" ::= "*";
         "STORAGE_TYPE" ::= "s3";
         "S3_BUCKET_NAME" ::= bucketName (storageBucket props);
         "S3_REGION" ::= region (bucketStack (storageBucket props));
         "S3_USE_AWS_MANAGED_IAM" ::= "true";
         "DB_DATABASE" ::= databaseName (postgres props);
         "VECTOR_STORE" ::= "pgvector";
         "PGVECTOR_DATABASE" ::= pgVectorDatabaseName (postgres props);
         "CODE_EXECUTION_ENDPOINT" ::= "http://localhost:8194";
         Spread (getAdditionalEnvironmentVariables this "api"
                   (additionalEnvironmentVariables props)) ]);
     logging := Some (awsLogs "log");
     portMappings := None;
     secrets := Some (objectLiteral
       [ "DB_USERNAME" ::= fromSecretsManager (pg_secret (postgres props)) (Some "username");
         "DB_HOST" ::= fromSecretsManager (pg_secret (postgres props)) (Some "host");
         "DB_PORT" ::= fromSecretsManager (pg_secret (postgres props)) (Some "port");
         "DB_PASSWORD" ::= fromSecretsManager (pg_secret (postgres props)) (Some "password");
         "PGVECTOR_USER" ::= fromSecretsManager (pg_secret (postgres props)) (Some "username");
         "PGVECTOR_HOST" ::= fromSecretsManager (pg_secret (postgres props)) (Some "host");
         "PGVECTOR_PORT" ::= fromSecretsManager (pg_secret (postgres props)) (Some "port");
         "PGVECTOR_PASSWORD" ::= fromSecretsManager (pg_secret (postgres props)) (Some "password");
         "REDIS_PASSWORD" ::= fromSecretsManager (redis_secret (redis props)) None;
         "CELERY_BROKER_URL" ::= fromSsmParameter (brokerUrl (redis props));
         Spread (getAdditionalSecretVariables this "api"
                   (additionalEnvironmentVariables props)) ]);
     healthCheck := None;
     essential := None;
     entryPoint := Some [ "tail" ];
     command := Some [ "-f"; "/dev/null" ] |}.

(** The Bedrock statement attached to the task role. *)
Definition bedrockStatement : PolicyStatement :=
  {| actions := [ "bedrock:InvokeModel";
                  "bedrock:InvokeModelWithResponseStream";
                  "bedrock:Rerank";
                  "bedrock:Retrieve";
                  "bedrock:RetrieveAndGenerate" ];
     resources := [ "*" ] |}.

(** [new ConsoleService(scope, id, props)]. *)
Definition ConsoleService (scope : Construct) (id : string)
    (props : ConsoleServiceProps) : Resources :=
  let this := child scope id in
  let taskDefinition :=
    new_FargateTaskDefinition this "Task" 1024 2048 X86_64 [] in
  let taskDefinition :=
    addContainer "Main" (MainOptions this props) taskDefinition in
  let grant :=
    {| grantedBucket := storageBucket props;
       grantee := taskRole taskDefinition |} in
  let taskDefinition := addToPrincipalPolicy bedrockStatement taskDefinition in
  let service :=
    {| serviceNode := child this "FargateService";
       cluster_ := cluster props;
       taskDefinition_ := taskDefinition;
       capacityProviderStrategies :=
         [ {| capacityProvider := "FARGATE"; weight := 1 |};
           {| capacityProvider := "FARGATE_SPOT"; weight := 0 |} ];
       enableExecuteCommand := Some true;
       minHealthyPercent := Some 0;
       desiredCount := Some 0 |} in
  let here := region (stackOf this) in
  {| taskDefinition := taskDefinition;
     newSecrets := [];
     service := service;
     bucketGrants := [ grant ];
     connections :=
       [ allowDefaultPortFrom (PostgresPeer (postgres props))
           (ServicePeer (serviceNode service));
         allowDefaultPortFrom (RedisPeer (redis props))
           (ServicePeer (serviceNode service)) ];
     albServices := [];
     outputs :=
       [ {| output_id := "ConsoleStartServiceCommand";
            output_value :=
              "aws ecs update-service --region " ++ here
                ++ " --cluster " ++ clusterName (cluster props)
                ++ " --service " ++ serviceName service
                ++ " --desired-count 1" |};
         {| output_id := "ConsoleStopServiceCommand";
            output_value :=
              "aws ecs update-service --region " ++ here
                ++ " --cluster " ++ clusterName (cluster props)
                ++ " --service " ++ serviceName service
                ++ " --desired-count 0" |};
         {| output_id := "ConsoleListTasksCommand";
            output_value :=
              "aws ecs list-tasks --region " ++ here
                ++ " --cluster " ++ clusterName (cluster props)
                ++ " --service-name " ++ serviceName service
                ++ " --desired-status RUNNING" |};
         {| output_id := "ConsoleConnectToTaskCommand";
            output_value :=
              "aws ecs execute-command --region " ++ here
                ++ " --cluster " ++ clusterName (cluster props)
                ++ " --container Main --interactive --command "
                ++ doubleQuote ++ "bash" ++ doubleQuote
                ++ " --task TASK_ID" |} ]
  |}.
End ConsoleService.

Arguments cluster {_} _.
Arguments alb {_} _.
Arguments postgres {_} _.
Arguments redis {_} _.
Arguments storageBucket {_} _.
Arguments imageTag {_} _.
Arguments customRepository {_} _.
Arguments additionalEnvironmentVariables {_} _.
Arguments MainOptions {_} _ _ _ _.
Arguments ConsoleService {_} _ _ _ _ _ _.

End console.

(** ** Reading a produced resource graph *)

(** The container registered under [id] by a constructor. *)
Definition containerOf (id : string) (r : Resources)
    : option ContainerDefinition :=
  findContainer id (taskDefinition r).

(** The plain variable [key] of a container, if it has one. *)
Definition environmentVariable (key : string) (c : ContainerDefinition)
    : option string :=
  environment (options c) ≫= (.!! key).

(** The secret-backed variable [key] of a container, if it has one. *)
Definition secretVariable (key : string) (c : ContainerDefinition)
    : option EcsSecret :=
  secrets (options c) ≫= (.!! key).

(** The secret behind a credential slot: a container name and a key of
    its [secrets] map. *)
Definition slot (r : Resources) (s : string * string) : option EcsSecret :=
  containerOf s.1 r ≫= secretVariable s.2.

(** The slots of the primary service that hold a generated credential. *)
Definition generatedCredentialSlots : list (string * string) :=
  [ ("Main", "SECRET_KEY");
    ("Main", "CODE_EXECUTION_API_KEY");
    ("Main", "INNER_API_KEY_FOR_PLUGIN");
    ("Main", "PLUGIN_API_KEY");
    ("Worker", "SECRET_KEY");
    ("Worker", "PLUGIN_API_KEY");
    ("Sandbox", "API_KEY");
    ("PluginDaemon", "SECRET_KEY");
    ("PluginDaemon", "CODE_EXECUTION_API_KEY");
    ("PluginDaemon", "DIFY_INNER_API_KEY");
    ("PluginDaemon", "SERVER_KEY") ].

(** The slots as the specification lists them: the four keys of the
    serving container are also expected on the worker. *)
Definition claimedCredentialSlots : list (string * string) :=
  [ ("Main", "SECRET_KEY");
    ("Main", "CODE_EXECUTION_API_KEY");
    ("Main", "INNER_API_KEY_FOR_PLUGIN");
    ("Main", "PLUGIN_API_KEY");
    ("Worker", "SECRET_KEY");
    ("Worker", "CODE_EXECUTION_API_KEY");
    ("Worker", "INNER_API_KEY_FOR_PLUGIN");
    ("Worker", "PLUGIN_API_KEY");
    ("Sandbox", "API_KEY");
    ("PluginDaemon", "SECRET_KEY");
    ("PluginDaemon", "CODE_EXECUTION_API_KEY");
    ("PluginDaemon", "DIFY_INNER_API_KEY");
    ("PluginDaemon", "SERVER_KEY") ].

(** Every action the task role is allowed by the statements attached to
    it. *)
Definition grantedActions (r : Resources) : list string :=
  concat (map actions (taskRolePolicy (taskDefinition r))).

(** The capacity providers a service gives a positive weight. *)
Definition weightedProviders (s : FargateService) : list string :=
  map capacityProvider
    (List.filter (fun c => 0 <? weight c) (capacityProviderStrategies s)).

(** The entry of a managed store that a secret reference points into. *)
Inductive StoreEntry : Type :=
| SecretsManagerEntry (secret : ISecret)
| ParameterStoreEntry (parameter : IStringParameter).

Definition store (v : EcsSecret) : StoreEntry :=
  match v with
  | fromSecretsManager secret _ => SecretsManagerEntry secret
  | fromSsmParameter parameter => ParameterStoreEntry parameter
  end.

(** The integers [0, 1, ..., n-1] in increasing order. *)
Definition integersBelow (n : nat) : list N := map N.of_nat (seq 0 n).

(** ** A sample deployment, used to evaluate the constructors *)

Module sample.

Definition stack : Stack := {| region := "us-east-1" |}.
Definition app : Construct := {| stackOf := stack; path := [ "DifyOnAws" ] |}.

Definition postgres : Postgres :=
  {| pg_secret := {| secretNode := child app "PostgresSecret" |};
     databaseName := "main";
     pgVectorDatabaseName := "pgvector" |}.

Definition redis : Redis :=
  {| endpoint := "redis.internal";
     redis_port := 6379;
     redis_secret := {| secretNode := child app "RedisAuthToken" |};
     brokerUrl := {| parameterNode := child app "RedisBrokerUrl" |} |}.

Definition storageBucket : IBucket :=
  {| bucketName := "dify-storage"; bucketStack := stack |}.

Definition apiProps : api.ApiServiceProps :=
  {| api.cluster := {| clusterName := "dify" |};
     api.alb := {| url := "https://dify.example.com" |};
     api.postgres := postgres;
     api.redis := redis;
     api.storageBucket := storageBucket;
     api.imageTag := "1.0.0";
     api.sandboxImageTag := "0.2.10";
     api.allowAnySyscalls := false;
     api.debug := None |}.

Definition primary : Resources := api.ApiService app "ApiService" apiProps.

(** The secret that [primary] generates, and its [Main] container. *)
Definition encryptionSecret : ISecret :=
  {| secretNode := child (child app "ApiService") "EncryptionSecret" |}.

Definition primaryMain : ContainerDefinition :=
  {| containerName := "Main";
     options := api.MainOptions apiProps encryptionSecret;
     mountPoints := [];
     containerDependencies := [] |}.

(** A caller-side list of plain overrides, the helpers that turn it into
    the two maps, and a service name. *)
Definition AdditionalEnvironmentVariables : Type := list (string * string).

Definition getAdditionalEnvironmentVariables (_ : Construct) (_ : string)
    (vars : AdditionalEnvironmentVariables) : gmap string string :=
  list_to_map vars.

Definition override : EcsSecret :=
  fromSecretsManager {| secretNode := child app "Override" |} None.

Definition getAdditionalSecretVariables (_ : Construct) (_ : string)
    (vars : AdditionalEnvironmentVariables) : gmap string EcsSecret :=
  (fun _ => override) <$> (list_to_map vars : gmap string string).

Definition serviceName (s : FargateService) : string :=
  String.concat "-" (path (serviceNode s)).

Definition consoleProps : console.ConsoleServiceProps AdditionalEnvironmentVariables :=
  {| console.cluster := {| clusterName := "dify" |};
     console.alb := {| url := "https://dify.example.com" |};
     console.postgres := postgres;
     console.redis := redis;
     console.storageBucket := storageBucket;
     console.imageTag := "1.0.0";
     console.customRepository := None;
     console.additionalEnvironmentVariables := [ ("MODE", "maintenance") ] |}.

Definition maintenance : Resources :=
  console.ConsoleService
    getAdditionalEnvironmentVariables getAdditionalSecretVariables
    serviceName app "ConsoleService" consoleProps.

End sample.

(** ** Further readings of a resource graph *)

(** The plain variable [key] of the container registered under [id]. *)
Definition variableOf (id key : string) (r : Resources) : option string :=
  containerOf id r ≫= environmentVariable key.

(** The ports a container maps. *)
Definition containerPorts (c : ContainerDefinition) : list N :=
  match portMappings (options c) with
  | Some mappings => map containerPort mappings
  | None => []
  end.

(** Every port mapped in a task, container after container. *)
Definition taskPorts (td : FargateTaskDefinition) : list N :=
  concat (map containerPorts (containers td)).

(** The port of the container registered under [id], when it maps exactly
    one. *)
Definition portOf (id : string) (r : Resources) : option N :=
  containerOf id r ≫= fun c =>
    match containerPorts c with
    | [ p ] => Some p
    | _ => None
    end.

(** The address of port [p] of the task, seen from one of its containers. *)
Definition localhost (p : N) : string :=
  "http://localhost:" ++ Number_toString p.


(** The names of the volumes a task declares. *)
Definition declaredVolumes (td : FargateTaskDefinition) : list string :=
  map name (volumes td).

(** The platform an image is built for, for an image built from an asset
    directory. *)
Definition assetPlatform (i : ContainerImage) : option Platform :=
  match i with
  | fromAsset _ platform _ => Some platform
  | _ => None
  end.

Definition assetPlatforms (td : FargateTaskDefinition) : list Platform :=
  omap (fun c => assetPlatform (image (options c))) (containers td).

(** An image built for [p] runs on a task of architecture [a]. *)
Definition runsOn (p : Platform) (a : CpuArchitecture) : bool :=
  match p, a with
  | LINUX_AMD64, X86_64 => true
  | LINUX_ARM64, ARM64 => true
  | _, _ => false
  end.

(** A dependency [d] of container [c] is well formed in [td]: its target
    is another container of the task, and a target awaited to completion
    is declared non-essential. *)
Definition wellFormedDependency (td : FargateTaskDefinition)
    (c : ContainerDefinition) (d : ContainerDependency) : Prop :=
  container d ≠ containerName c ∧
  ∃ target,
    findContainer (container d) td = Some target ∧
    (condition d = COMPLETE → essential (options target) = Some false).


Definition withDebug (d : option bool) (props : api.ApiServiceProps)
    : api.ApiServiceProps :=
  {| api.cluster := api.cluster props;
     api.alb := api.alb props;
     api.postgres := api.postgres props;
     api.redis := api.redis props;
     api.storageBucket := api.storageBucket props;
     api.imageTag := api.imageTag props;
     api.sandboxImageTag := api.sandboxImageTag props;
     api.allowAnySyscalls := api.allowAnySyscalls props;
     api.debug := d |}.

Definition withImageTag (tag : string) (props : api.ApiServiceProps)
    : api.ApiServiceProps :=
  {| api.cluster := api.cluster props;
     api.alb := api.alb props;
     api.postgres := api.postgres props;
     api.redis := api.redis props;
     api.storageBucket := api.storageBucket props;
     api.imageTag := tag;
     api.sandboxImageTag := api.sandboxImageTag props;
     api.allowAnySyscalls := api.allowAnySyscalls props;
     api.debug := api.debug props |}.

(** The containers of a task other than those named in [ids]. *)
Definition containersBut (ids : list string) (r : Resources)
    : list ContainerDefinition :=
  List.filter
    (fun c => negb (existsb (String.eqb (containerName c)) ids))
    (containers (taskDefinition r)).

(** The keys of the members that the console's [Main] container writes
    before its spread, in [environment] and in [secrets]. *)
Definition consoleFixedEnvironment : list string :=
  [ "MODE"; "CONSOLE_WEB_URL"; "CONSOLE_API_URL"; "SERVICE_API_URL";
    "APP_WEB_URL"; "SQLALCHEMY_POOL_PRE_PING"; "REDIS_HOST"; "REDIS_PORT";
    "REDIS_USE_SSL"; "REDIS_DB"; "WEB_API_CORS_ALLOW_ORIGINS";
    "CONSOLE_CORS_ALLOW_ORIGINS"; "STORAGE_TYPE"; "S3_BUCKET_NAME";
    "S3_REGION"; "S3_USE_AWS_MANAGED_IAM"; "DB_DATABASE"; "VECTOR_STORE";
    "PGVECTOR_DATABASE"; "CODE_EXECUTION_ENDPOINT" ].

Definition consoleFixedSecrets : list string :=
  [ "DB_USERNAME"; "DB_HOST"; "DB_PORT"; "DB_PASSWORD"; "PGVECTOR_USER";
    "PGVECTOR_HOST"; "PGVECTOR_PORT"; "PGVECTOR_PASSWORD"; "REDIS_PASSWORD";
    "CELERY_BROKER_URL" ].

(** The build argument [key] of the image of a container, for an image
    built from an asset directory. *)
Definition buildArg (key : string) (c : ContainerDefinition) : option string :=
  match image (options c) with
  | fromAsset _ _ (Some args) => args !! key
  | _ => None
  end.

(** Member [m] gives key [k] some value. *)
Definition definesKey {V} (k : string) (m : Member V) : Prop :=
  match m with
  | KeyValue k' _ => k' = k
  | Spread s => is_Some (s !! k)
  end.

(** The value of the output declared under [id]. *)
Definition outputOf (id : string) (r : Resources) : option string :=
  output_value <$>
    find (fun o => String.eqb (output_id o) id) (outputs r).

(** ** Object literals *)

Section ObjectLiteral.
Context {V : Type}.
Implicit Types (ms : list (Member V)) (s : gmap string V) (k : string) (v : V).

Lemma objectLiteral_snoc ms m :
  objectLiteral (ms ++ [m]) = define (objectLiteral ms) m.
Proof. unfold objectLiteral. by rewrite foldl_app. Qed.

(** A key defined last wins. *)
Lemma lookup_objectLiteral_key_last ms k v :
  objectLiteral (ms ++ [k ::= v]) !! k = Some v.
Proof. rewrite objectLiteral_snoc. apply lookup_insert_eq. Qed.

(** A trailing spread overrides every key it holds and leaves the others
    as the members before it defined them. *)
Lemma lookup_objectLiteral_spread_last ms s k :
  objectLiteral (ms ++ [Spread s]) !! k =
    match s !! k with
    | Some v => Some v
    | None => objectLiteral ms !! k
    end.
Proof.
  rewrite objectLiteral_snoc. cbn [define]. rewrite lookup_union.
  destruct (s !! k), (objectLiteral ms !! k); reflexivity.
Qed.

(** A spread written last overrides whatever precedes it. *)
Lemma lookup_objectLiteral_spread_wins ms s k v :
  last ms = Some (Spread s) → s !! k = Some v →
  objectLiteral ms !! k = Some v.
Proof.
  intros (ms' & ->)%last_Some Hk.
  by rewrite lookup_objectLiteral_spread_last, Hk.
Qed.

(** A key that the last spread does not hold is left as it was. *)
Lemma lookup_objectLiteral_spread_misses ms s k :
  last ms = Some (Spread s) → s !! k = None →
  objectLiteral ms !! k = objectLiteral (removelast ms) !! k.
Proof.
  intros (ms' & ->)%last_Some Hk.
  by rewrite removelast_last, lookup_objectLiteral_spread_last, Hk.
Qed.

Lemma lookup_define_Some o m k v :
  define o m !! k = Some v → defines k v m ∨ o !! k = Some v.
Proof.
  destruct m as [k' v' | s]; cbn [define defines].
  - rewrite lookup_insert. case_decide; [ | by right ].
    intros [= ->]. by left.
  - rewrite lookup_union_Some_raw. intros [H | [_ H]]; [ by left | by right ].
Qed.

Lemma lookup_objectLiteral_Some ms k v :
  objectLiteral ms !! k = Some v → Exists (defines k v) ms.
Proof.
  induction ms as [ | m ms IH ] using rev_ind.
  - unfold objectLiteral; cbn. by rewrite lookup_empty.
  - rewrite objectLiteral_snoc. intros H.
    apply Exists_app. destruct (lookup_define_Some _ _ _ _ H) as [Hm | Ho].
    + right. by apply Exists_cons_hd.
    + left. by apply IH.
Qed.
End ObjectLiteral.

(** ** Arrays *)

Lemma imap_index_replicate {A} (f : nat → N) (n : nat) (x : A) :
  imap (fun i _ => f i) (replicate n x) = map f (seq 0 n).
Proof.
  revert f. induction n as [ | n IH ]; intros f; [ reflexivity | ].
  cbn [replicate imap seq map]. f_equal.
  rewrite <- seq_shift, map_map. apply (IH (f ∘ S)).
Qed.

(** [Array(n).fill(v).map((_, i) => i)] is [0, 1, ..., n-1]. *)
Lemma Array_map_index_fill {A} (n : nat) (v : A) :
  Array_map (fun _ i => i) (Array_fill n v) = integersBelow n.
Proof. apply (imap_index_replicate N.of_nat). Qed.

Lemma integersBelow_length n : length (integersBelow n) = n.
Proof. unfold integersBelow. by rewrite length_map, length_seq. Qed.

(** The [i]-th element of [integersBelow n] is [i], for every [i < n], and
    there is no other element. *)
Lemma integersBelow_lookup n i :
  integersBelow n !! i = if decide (i < n)%nat then Some (N.of_nat i) else None.
Proof.
  unfold integersBelow. rewrite list_lookup_fmap.
  case_decide as Hi.
  - by rewrite lookup_seq_lt.
  - rewrite lookup_seq_ge; [ reflexivity | lia ].
Qed.

Lemma elem_of_integersBelow n (x : N) :
  x ∈ integersBelow n ↔ (x < N.of_nat n)%N.
Proof.
  unfold integersBelow. rewrite list_elem_of_fmap. split.
  - intros (i & -> & Hi). apply elem_of_seq in Hi. lia.
  - intros Hx. exists (N.to_nat x). split; [ lia | ].
    apply elem_of_seq. lia.
Qed.

Lemma allowedSyscalls_eq :
  api.allowedSyscalls =
    Array_join "," (map Number_toString (integersBelow 457)).
Proof. unfold api.allowedSyscalls. by rewrite Array_map_index_fill. Qed.

Example join_integersBelow_12 :
  Array_join "," (map Number_toString (integersBelow 12)) =
    "0,1,2,3,4,5,6,7,8,9,10,11".
Proof. reflexivity. Qed.

(** The allow-list starts at 0, ends at 456 and is 1717 characters long:
    10 + 2 * 90 + 3 * 357 digits and 456 commas. *)
Example allowedSyscalls_shape :
  String.length api.allowedSyscalls = 1717%nat ∧
  substring 0 12 api.allowedSyscalls = "0,1,2,3,4,5," ∧
  substring 1702 15 api.allowedSyscalls = "453,454,455,456".
Proof. by vm_compute. Qed.

(** ** The primary service *)

Section ApiService.
Variables (scope : Construct) (id : string) (props : api.ApiServiceProps).

Local Abbreviation Primary := (api.ApiService scope id props).
Local Abbreviation this := (child scope id).
Local Abbreviation key :=
  (generated (new_Secret (child scope id) "EncryptionSecret" 42)).

(** The six containers of the task definition, as the constructor leaves
    them: only the two sandbox containers carry a mount point, only the
    executor a dependency. *)
Lemma ApiService_containers :
  containers (taskDefinition Primary) =
    [ {| containerName := "Main";
         options := api.MainOptions props key;
         mountPoints := [];
         containerDependencies := [] |};
      {| containerName := "Worker";
         options := api.WorkerOptions props key;
         mountPoints := [];
         containerDependencies := [] |};
      {| containerName := "SandboxFileMount";
         options := api.SandboxFileMountOptions;
         mountPoints :=
           [ {| containerPath := "/dependencies";
                sourceVolume := "sandbox";
                readOnly := false |} ];
         containerDependencies := [] |};
      {| containerName := "Sandbox";
         options := api.SandboxOptions props key;
         mountPoints :=
           [ {| containerPath := "/dependencies";
                sourceVolume := "sandbox";
                readOnly := true |} ];
         containerDependencies :=
           [ {| container := "SandboxFileMount"; condition := COMPLETE |} ] |};
      {| containerName := "PluginDaemon";
         options := api.PluginDaemonOptions props key;
         mountPoints := [];
         containerDependencies := [] |};
      {| containerName := "ExternalKnowledgeBaseAPI";
         options := api.ExternalKnowledgeBaseAPIOptions props;
         mountPoints := [];
         containerDependencies := [] |} ].
Proof. reflexivity. Qed.

Lemma ApiService_container_names :
  map containerName (containers (taskDefinition Primary)) =
    [ "Main"; "Worker"; "SandboxFileMount"; "Sandbox"; "PluginDaemon";
      "ExternalKnowledgeBaseAPI" ].
Proof. reflexivity. Qed.

Lemma SandboxOptions_ALLOWED_SYSCALLS (secret : ISecret) :
  environment (api.SandboxOptions props secret) ≫= (.!! "ALLOWED_SYSCALLS") =
    if api.allowAnySyscalls props then Some api.allowedSyscalls else None.
Proof.
  cbn [api.SandboxOptions environment mbind option_bind].
  destruct (api.allowAnySyscalls props); reflexivity.
Qed.

(** The allow-list, written with the Standard Library alone: the decimal
    numerals of 0, 1, ..., 456, in that order, with a comma between two
    neighbours. *)
Lemma allowedSyscalls_numerals :
  api.allowedSyscalls =
    String.concat ","
      (map (fun i => NilEmpty.string_of_uint (Nat.to_uint i)) (seq 0 457)).
Proof. by vm_compute. Qed.

Example allowedSyscalls_literal :
  String.concat ","
    (map (fun i => NilEmpty.string_of_uint (Nat.to_uint i)) (seq 0 457)) =
    "0,1,2,3,4,5,6,7,8,9,10,11,12,13,14,15,16,17,18,19,20,21,22,23,24,25,26,27,28,29,30,31,32,33,34,35,36,37,38,39,40,41,42,43,44,45,46,47,48,49,50,51,52,53,54,55,56,57,58,59,60,61,62,63,64,65,66,67,68,69,70,71,72,73,74,75,76,77,78,79,80,81,82,83,84,85,86,87,88,89,90,91,92,93,94,95,96,97,98,99,100,101,102,103,104,105,106,107,108,109,110,111,112,113,114,115,116,117,118,119,120,121,122,123,124,125,126,127,128,129,130,131,132,133,134,135,136,137,138,139,140,141,142,143,144,145,146,147,148,149,150,151,152,153,154,155,156,157,158,159,160,161,162,163,164,165,166,167,168,169,170,171,172,173,174,175,176,177,178,179,180,181,182,183,184,185,186,187,188,189,190,191,192,193,194,195,196,197,198,199,200,201,202,203,204,205,206,207,208,209,210,211,212,213,214,215,216,217,218,219,220,221,222,223,224,225,226,227,228,229,230,231,232,233,234,235,236,237,238,239,240,241,242,243,244,245,246,247,248,249,250,251,252,253,254,255,256,257,258,259,260,261,262,263,264,265,266,267,268,269,270,271,272,273,274,275,276,277,278,279,280,281,282,283,284,285,286,287,288,289,290,291,292,293,294,295,296,297,298,299,300,301,302,303,304,305,306,307,308,309,310,311,312,313,314,315,316,317,318,319,320,321,322,323,324,325,326,327,328,329,330,331,332,333,334,335,336,337,338,339,340,341,342,343,344,345,346,347,348,349,350,351,352,353,354,355,356,357,358,359,360,361,362,363,364,365,366,367,368,369,370,371,372,373,374,375,376,377,378,379,380,381,382,383,384,385,386,387,388,389,390,391,392,393,394,395,396,397,398,399,400,401,402,403,404,405,406,407,408,409,410,411,412,413,414,415,416,417,418,419,420,421,422,423,424,425,426,427,428,429,430,431,432,433,434,435,436,437,438,439,440,441,442,443,444,445,446,447,448,449,450,451,452,453,454,455,456".
Proof. by vm_compute. Qed.

(** C1. The sandbox executor exists, has an environment, and that
    environment holds [ALLOWED_SYSCALLS] exactly when [allowAnySyscalls]
    is true; its value is then the decimal numerals of 0, 1, ..., 456, in
    that order, joined by commas.  When the flag is false the key is
    absent.  The value is stated with the Standard Library's [seq],
    decimal printer and [String.concat]. *)
Theorem sandbox_allowed_syscalls :
  ∃ c env,
    containerOf "Sandbox" Primary = Some c ∧
    environment (options c) = Some env ∧
    env !! "ALLOWED_SYSCALLS" =
      if api.allowAnySyscalls props
      then Some
             (String.concat ","
                (map (fun i => NilEmpty.string_of_uint (Nat.to_uint i))
                   (seq 0 457)))
      else None.
Proof.
  eexists _, _. split; [ reflexivity | ]. split; [ reflexivity | ].
  rewrite <- allowedSyscalls_numerals.
  exact (SandboxOptions_ALLOWED_SYSCALLS key).
Qed.

(** C2. The sandbox executor declares exactly one dependency; it targets
    the container registered as [SandboxFileMount], which the task
    definition holds, and its condition is [COMPLETE], hence neither
    [HEALTHY] nor [START]. *)
Theorem sandbox_waits_for_file_mount_completion :
  ∃ c,
    containerOf "Sandbox" Primary = Some c ∧
    containerDependencies c =
      [ {| container := "SandboxFileMount"; condition := COMPLETE |} ] ∧
    Forall (fun d => condition d ≠ HEALTHY ∧ condition d ≠ START)
      (containerDependencies c) ∧
    containerName <$> containerOf "SandboxFileMount" Primary =
      Some "SandboxFileMount".
Proof.
  eexists. split; [ reflexivity | ]. split; [ reflexivity | ].
  split; [ | reflexivity ].
  apply Forall_singleton. by split.
Qed.

Lemma routedPaths_spec (x : string) :
  x ∈ api.routedPaths ↔
  ∃ p, p ∈ [ "/console/api"; "/api"; "/v1"; "/files" ] ∧
       (x = p ∨ x = p ++ "/*").
Proof.
  unfold api.routedPaths.
  change api.paths with [ "/console/api"; "/api"; "/v1"; "/files" ].
  rewrite elem_of_app, list_elem_of_fmap. split.
  - intros [Hx | (p & -> & Hp)]; [ exists x | exists p ]; auto.
  - intros (p & Hp & [-> | ->]); [ by left | right; by exists p ].
Qed.

(** C4. The constructor registers one rule on the load balancer.  A path
    is routed exactly when it is one of the four prefixes or one of them
    followed by [/*]; the eight paths are distinct.  The rule targets the
    service, on the port the [Main] container maps, with health-check
    path [/health]. *)
Theorem api_routing_rule :
  ∃ rule,
    albServices Primary = [ rule ] ∧
    alb_service rule = serviceNode (service Primary) ∧
    alb_healthCheckPath rule = "/health" ∧
    (containerOf "Main" Primary ≫= fun c => portMappings (options c)) =
      Some [ {| containerPort := alb_port rule |} ] ∧
    NoDup (alb_paths rule) ∧
    ∀ x, x ∈ alb_paths rule ↔
         ∃ p, p ∈ [ "/console/api"; "/api"; "/v1"; "/files" ] ∧
              (x = p ∨ x = p ++ "/*").
Proof.
  eexists. split; [ reflexivity | ].
  repeat (split; [ reflexivity | ]).
  split; [ | exact routedPaths_spec ].
  cbn [alb_paths]. compute_done.
Qed.

(** C7, as the code has it.  The constructor creates one secret.  The
    four slots of [Main], [SECRET_KEY] and [PLUGIN_API_KEY] of [Worker],
    [API_KEY] of [Sandbox] and the four slots of [PluginDaemon] all
    reference it; [Worker] has no [CODE_EXECUTION_API_KEY] and no
    [INNER_API_KEY_FOR_PLUGIN] variable. *)
Theorem one_secret_backs_every_generated_slot :
  newSecrets Primary = [ new_Secret this "EncryptionSecret" 42 ] ∧
  Forall (fun s => slot Primary s = Some (fromSecretsManager key None))
    generatedCredentialSlots ∧
  slot Primary ("Worker", "CODE_EXECUTION_API_KEY") = None ∧
  slot Primary ("Worker", "INNER_API_KEY_FOR_PLUGIN") = None.
Proof.
  split; [ reflexivity | ]. split; [ | split; reflexivity ].
  unfold generatedCredentialSlots.
  repeat (apply Forall_cons; split; [ reflexivity | ]).
  apply Forall_nil_2.
Qed.

(** C10. The initializer mounts volume [sandbox], which the task
    definition declares, read-write at [/dependencies]; the executor
    mounts the same volume at the same path read-only; the initializer
    is declared with [essential: false]. *)
Theorem sandbox_volume_mounts :
  volumes (taskDefinition Primary) = [ {| name := "sandbox" |} ] ∧
  mountPoints <$> containerOf "SandboxFileMount" Primary =
    Some [ {| containerPath := "/dependencies";
              sourceVolume := "sandbox";
              readOnly := false |} ] ∧
  mountPoints <$> containerOf "Sandbox" Primary =
    Some [ {| containerPath := "/dependencies";
              sourceVolume := "sandbox";
              readOnly := true |} ] ∧
  (containerOf "SandboxFileMount" Primary ≫= fun c => essential (options c)) =
    Some false.
Proof. repeat split. Qed.
End ApiService.

(** C7, as stated, fails on the sample deployment: no secret is referenced
    by all thirteen claimed slots, because two of them do not exist on the
    worker. *)
Lemma claimed_slots_not_all_present :
  ¬ ∃ g, newSecrets sample.primary = [ g ] ∧
         Forall (fun s => slot sample.primary s =
                            Some (fromSecretsManager (generated g) None))
           claimedCredentialSlots.
Proof.
  intros (g & _ & H). rewrite Forall_forall in H.
  specialize (H ("Worker", "CODE_EXECUTION_API_KEY")).
  assert (Hin : ("Worker", "CODE_EXECUTION_API_KEY") ∈ claimedCredentialSlots)
    by compute_done.
  specialize (H Hin). vm_compute in H. discriminate H.
Qed.

(** ** The console service, and the two services side by side *)

Section Services.
Variable AdditionalEnvironmentVariables : Type.
Variable getAdditionalEnvironmentVariables :
  Construct → string → AdditionalEnvironmentVariables → gmap string string.
Variable getAdditionalSecretVariables :
  Construct → string → AdditionalEnvironmentVariables → gmap string EcsSecret.
Variable serviceName : FargateService → string.

Variables (scope : Construct) (id : string).
Variable props : console.ConsoleServiceProps AdditionalEnvironmentVariables.
Variables (apiScope : Construct) (apiId : string).
Variable apiProps : api.ApiServiceProps.

Local Abbreviation this := (child scope id).
Local Abbreviation additional := (console.additionalEnvironmentVariables props).
Local Abbreviation Console :=
  (console.ConsoleService getAdditionalEnvironmentVariables
     getAdditionalSecretVariables serviceName scope id props).
Local Abbreviation Primary := (api.ApiService apiScope apiId apiProps).
Local Abbreviation key :=
  (generated (new_Secret (child apiScope apiId) "EncryptionSecret" 42)).

Lemma ConsoleService_containers :
  containers (taskDefinition Console) =
    [ {| containerName := "Main";
         options :=
           console.MainOptions getAdditionalEnvironmentVariables
             getAdditionalSecretVariables this props;
         mountPoints := [];
         containerDependencies := [] |} ].
Proof. reflexivity. Qed.

(** C3, as the code has it.  Each constructor grants its task role
    read/write on the bucket of its props.  The primary allows four
    Bedrock actions on every resource; the console allows the same four
    and [bedrock:RetrieveAndGenerate].  The console opens the default
    ports of the database and of the cache to the console service. *)
Theorem console_permissions :
  bucketGrants Primary =
    [ {| grantedBucket := api.storageBucket apiProps;
         grantee := taskRole (taskDefinition Primary) |} ] ∧
  bucketGrants Console =
    [ {| grantedBucket := console.storageBucket props;
         grantee := taskRole (taskDefinition Console) |} ] ∧
  map resources (taskRolePolicy (taskDefinition Primary)) = [ [ "*" ] ] ∧
  map resources (taskRolePolicy (taskDefinition Console)) = [ [ "*" ] ] ∧
  grantedActions Primary =
    [ "bedrock:InvokeModel"; "bedrock:InvokeModelWithResponseStream";
      "bedrock:Rerank"; "bedrock:Retrieve" ] ∧
  grantedActions Console =
    (grantedActions Primary ++ [ "bedrock:RetrieveAndGenerate" ])%list ∧
  connections Console =
    [ allowDefaultPortFrom (PostgresPeer (console.postgres props))
        (ServicePeer (serviceNode (service Console)));
      allowDefaultPortFrom (RedisPeer (console.redis props))
        (ServicePeer (serviceNode (service Console))) ].
Proof. repeat split. Qed.

(** C5. The console service is created with [desiredCount: 0]; the
    primary service is created without a [desiredCount]; the console
    task has one container, declared without [portMappings]; the console
    constructor registers nothing on the load balancer. *)
Theorem console_starts_at_zero :
  desiredCount (service Console) = Some 0 ∧
  desiredCount (service Primary) = None ∧
  map containerName (containers (taskDefinition Console)) = [ "Main" ] ∧
  (fun main => portMappings (options main)) <$> containerOf "Main" Console =
    Some None ∧
  albServices Console = [].
Proof. repeat split. Qed.

(** C9. The primary service weighs [FARGATE] 0 and [FARGATE_SPOT] 1, so
    that [FARGATE_SPOT] is its only provider with a positive weight; the
    console service weighs [FARGATE] 1 and [FARGATE_SPOT] 0, so that
    [FARGATE] is its only provider with a positive weight. *)
Theorem capacity_provider_weights :
  capacityProviderStrategies (service Primary) =
    [ {| capacityProvider := "FARGATE"; weight := 0 |};
      {| capacityProvider := "FARGATE_SPOT"; weight := 1 |} ] ∧
  weightedProviders (service Primary) = [ "FARGATE_SPOT" ] ∧
  capacityProviderStrategies (service Console) =
    [ {| capacityProvider := "FARGATE"; weight := 1 |};
      {| capacityProvider := "FARGATE_SPOT"; weight := 0 |} ] ∧
  weightedProviders (service Console) = [ "FARGATE" ].
Proof. repeat split. Qed.

(** C6. In a container of either service, a variable of the [secrets] map
    is an [ecs.Secret] taken from a managed store: for the primary
    service the database secret, the cache secret, the broker-URL
    parameter or the generated secret; for the console service one of
    the first three, or the reference that
    [getAdditionalSecretVariables] returned under that key. *)
Theorem secrets_are_references :
  (∀ d k v,
     d ∈ containers (taskDefinition Primary) → secretVariable k d = Some v →
     store v ∈
       [ SecretsManagerEntry (pg_secret (api.postgres apiProps));
         SecretsManagerEntry (redis_secret (api.redis apiProps));
         ParameterStoreEntry (brokerUrl (api.redis apiProps));
         SecretsManagerEntry key ]) ∧
  (∀ d k v,
     d ∈ containers (taskDefinition Console) → secretVariable k d = Some v →
     store v ∈
       [ SecretsManagerEntry (pg_secret (console.postgres props));
         SecretsManagerEntry (redis_secret (console.redis props));
         ParameterStoreEntry (brokerUrl (console.redis props)) ] ∨
     getAdditionalSecretVariables this "api" additional !! k = Some v).
Proof.
  split; intros d k v Hd Hv.
  - rewrite ApiService_containers in Hd.
    repeat (apply elem_of_cons in Hd as [-> | Hd]);
      [ .. | by apply elem_of_nil in Hd ];
      unfold secretVariable in Hv;
      cbn [options secrets mbind option_bind api.MainOptions
             api.WorkerOptions api.SandboxFileMountOptions
             api.SandboxOptions api.PluginDaemonOptions
             api.ExternalKnowledgeBaseAPIOptions] in Hv;
      try discriminate Hv;
      apply lookup_objectLiteral_Some in Hv;
      repeat (apply Exists_cons in Hv as [ [_ <-] | Hv ]);
      try (by apply Exists_nil in Hv);
      cbn [store]; set_solver.
  - rewrite ConsoleService_containers in Hd.
    apply list_elem_of_singleton in Hd as ->.
    unfold secretVariable in Hv.
    cbn [options secrets mbind option_bind console.MainOptions] in Hv.
    apply lookup_objectLiteral_Some in Hv.
    repeat (apply Exists_cons in Hv as [ [_ <-] | Hv ]);
      try (left; cbn [store]; set_solver).
    apply Exists_cons in Hv as [ Hv | Hv ]; [ by right | ].
    by apply Exists_nil in Hv.
Qed.

(** C8, as the code has it.  In the console's [Main] container, a key
    that [getAdditionalEnvironmentVariables] returns carries the returned
    value in [environment], and a key that
    [getAdditionalSecretVariables] returns carries the returned reference
    in [secrets], whatever the fixed members before the spread say. *)
Theorem console_override_wins (k : string) :
  (∀ v, getAdditionalEnvironmentVariables this "api" additional !! k = Some v →
        containerOf "Main" Console ≫= environmentVariable k = Some v) ∧
  (∀ w, getAdditionalSecretVariables this "api" additional !! k = Some w →
        containerOf "Main" Console ≫= secretVariable k = Some w).
Proof.
  split; intros v Hv.
  - change (containerOf "Main" Console ≫= environmentVariable k)
      with (environment
              (console.MainOptions getAdditionalEnvironmentVariables
                 getAdditionalSecretVariables this props) ≫= (.!! k)).
    cbn [console.MainOptions environment mbind option_bind].
    by apply lookup_objectLiteral_spread_wins
      with (s := getAdditionalEnvironmentVariables this "api" additional).
  - change (containerOf "Main" Console ≫= secretVariable k)
      with (secrets
              (console.MainOptions getAdditionalEnvironmentVariables
                 getAdditionalSecretVariables this props) ≫= (.!! k)).
    cbn [console.MainOptions secrets mbind option_bind].
    by apply lookup_objectLiteral_spread_wins
      with (s := getAdditionalSecretVariables this "api" additional).
Qed.

(** Under a key that the helper does not return, the console's [Main]
    container keeps the fixed member, here [MODE]. *)
Lemma console_fixed_MODE :
  getAdditionalEnvironmentVariables this "api" additional !! "MODE" = None →
  containerOf "Main" Console ≫= environmentVariable "MODE" = Some "api".
Proof.
  intros Hnone.
  change (containerOf "Main" Console ≫= environmentVariable "MODE")
    with (environment
            (console.MainOptions getAdditionalEnvironmentVariables
               getAdditionalSecretVariables this props) ≫= (.!! "MODE")).
  cbn [console.MainOptions environment mbind option_bind].
  erewrite lookup_objectLiteral_spread_misses;
    [ reflexivity | reflexivity | exact Hnone ].
Qed.

(** The primary service takes no override: whatever its props, the
    [Main] container runs with [MODE] set to [api]. *)
Lemma api_MODE_fixed :
  containerOf "Main" Primary ≫= environmentVariable "MODE" = Some "api".
Proof. reflexivity. Qed.
End Services.

(** ** Statements of the specification that the code does not satisfy *)

(** C3, as stated, fails: the console's task role is allowed
    [bedrock:RetrieveAndGenerate], the primary's is not, so the two action
    sets differ. *)
Lemma console_allows_one_more_action :
  ¬ (∀ x, x ∈ grantedActions sample.maintenance ↔
          x ∈ grantedActions sample.primary).
Proof.
  intros H. destruct (H "bedrock:RetrieveAndGenerate") as [H1 _].
  assert (Hin : "bedrock:RetrieveAndGenerate" ∈ grantedActions sample.maintenance)
    by compute_done.
  assert (Hout : "bedrock:RetrieveAndGenerate" ∉ grantedActions sample.primary)
    by compute_done.
  exact (Hout (H1 Hin)).
Qed.

(** C8, as stated, fails for the primary service: [ApiServiceProps] has no
    field for overrides, so the container definitions are fixed by the
    props.  A caller who wants [MODE] to be [maintenance] still gets a
    [Main] container whose [MODE] is [api]. *)
Lemma primary_ignores_overrides :
  ¬ (∀ (overrides : gmap string string) k v,
       overrides !! k = Some v →
       containerOf "Main" sample.primary ≫= environmentVariable k = Some v).
Proof.
  intros H.
  specialize (H {[ "MODE" := "maintenance" ]} "MODE" "maintenance" eq_refl).
  vm_compute in H. discriminate H.
Qed.

(** ** The theorems with a premise, applied to the sample deployment *)

Lemma secrets_are_references_sample :
  sample.primaryMain ∈ containers (taskDefinition sample.primary) ∧
  secretVariable "SECRET_KEY" sample.primaryMain =
    Some (fromSecretsManager sample.encryptionSecret None) ∧
  store (fromSecretsManager sample.encryptionSecret None) ∈
    [ SecretsManagerEntry (pg_secret sample.postgres);
      SecretsManagerEntry (redis_secret sample.redis);
      ParameterStoreEntry (brokerUrl sample.redis);
      SecretsManagerEntry sample.encryptionSecret ].
Proof.
  assert (Hd : sample.primaryMain ∈ containers (taskDefinition sample.primary))
    by apply list_elem_of_here.
  assert (Hv : secretVariable "SECRET_KEY" sample.primaryMain =
               Some (fromSecretsManager sample.encryptionSecret None))
    by reflexivity.
  split; [ exact Hd | ]. split; [ exact Hv | ].
  exact (proj1
           (secrets_are_references sample.AdditionalEnvironmentVariables
              sample.getAdditionalEnvironmentVariables
              sample.getAdditionalSecretVariables sample.serviceName
              sample.app "ConsoleService" sample.consoleProps
              sample.app "ApiService" sample.apiProps)
           sample.primaryMain "SECRET_KEY" _ Hd Hv).
Defined.

Lemma console_override_wins_sample :
  sample.getAdditionalEnvironmentVariables
    (child sample.app "ConsoleService") "api"
    (console.additionalEnvironmentVariables sample.consoleProps)
    !! "MODE" = Some "maintenance" ∧
  containerOf "Main" sample.maintenance ≫= environmentVariable "MODE" =
    Some "maintenance" ∧
  sample.getAdditionalSecretVariables
    (child sample.app "ConsoleService") "api"
    (console.additionalEnvironmentVariables sample.consoleProps)
    !! "MODE" = Some sample.override ∧
  containerOf "Main" sample.maintenance ≫= secretVariable "MODE" =
    Some sample.override.
Proof.
  assert (He : sample.getAdditionalEnvironmentVariables
                 (child sample.app "ConsoleService") "api"
                 (console.additionalEnvironmentVariables sample.consoleProps)
                 !! "MODE" = Some "maintenance")
    by reflexivity.
  assert (Hs : sample.getAdditionalSecretVariables
                 (child sample.app "ConsoleService") "api"
                 (console.additionalEnvironmentVariables sample.consoleProps)
                 !! "MODE" = Some sample.override)
    by reflexivity.
  pose proof (console_override_wins sample.AdditionalEnvironmentVariables
                sample.getAdditionalEnvironmentVariables
                sample.getAdditionalSecretVariables sample.serviceName
                sample.app "ConsoleService" sample.consoleProps "MODE")
    as [Henv Hsec].
  split; [ exact He | ]. split; [ exact (Henv _ He) | ].
  split; [ exact Hs | exact (Hsec _ Hs) ].
Defined.

(** ** Well-formedness of the primary task definition *)

Section PrimaryTask.
Variables (scope : Construct) (id : string) (props : api.ApiServiceProps).

Local Abbreviation Primary := (api.ApiService scope id props).

(** X1. The task has six containers, and no two share a name. *)
Theorem primary_container_names_distinct :
  map containerName
      (containers (taskDefinition (api.ApiService scope id props))) =
    [ "Main"; "Worker"; "SandboxFileMount"; "Sandbox"; "PluginDaemon";
      "ExternalKnowledgeBaseAPI" ] ∧
  NoDup
    (map containerName
       (containers (taskDefinition (api.ApiService scope id props)))).
Proof.
  split; [ reflexivity | ].
  rewrite ApiService_container_names. compute_done.
Qed.

(** X2. Every mount point of every container names a volume that the task
    definition declares, and the two mounts that exist are of the same
    volume. *)
Theorem primary_mounts_use_declared_volumes :
  Forall
    (fun c =>
       Forall (fun m => sourceVolume m ∈ declaredVolumes (taskDefinition Primary))
         (mountPoints c))
    (containers (taskDefinition Primary)) ∧
  concat (map (fun c => map sourceVolume (mountPoints c))
            (containers (taskDefinition Primary))) =
    [ api.volumeName; api.volumeName ].
Proof.
  split; [ | reflexivity ].
  rewrite ApiService_containers.
  repeat (apply Forall_cons; split;
          [ cbn [mountPoints];
            repeat (apply Forall_cons; split; [ by apply list_elem_of_here | ]);
            apply Forall_nil_2 | ]).
  apply Forall_nil_2.
Qed.

(** X3. Every container dependency targets another container of the same
    task, and a target that is awaited to completion is declared
    non-essential, so that its exit does not stop the task. *)
Theorem primary_dependencies_well_formed :
  Forall
    (fun c =>
       Forall (wellFormedDependency (taskDefinition Primary) c)
         (containerDependencies c))
    (containers (taskDefinition Primary)).
Proof.
  rewrite ApiService_containers.
  repeat (apply Forall_cons; split);
    cbn [containerDependencies]; try apply Forall_nil_2.
  unfold wellFormedDependency.
  cbn [container condition containerName]. split; [ done | ].
  eexists. split; [ reflexivity | ]. intros _. reflexivity.
Qed.

(** X4. The containers of the task share one network namespace; the ports
    they map are 5001, 8194, 5002 and 8000, each mapped once. *)
Theorem primary_ports_distinct :
  taskPorts (taskDefinition Primary) = [ 5001; 8194; 5002; 8000 ] ∧
  NoDup (taskPorts (taskDefinition Primary)).
Proof. split; [ reflexivity | compute_done ]. Qed.

(** X5. The loopback addresses written in the environments are those of
    ports that containers of the task map: the sandbox endpoint given to
    [Main] and [PluginDaemon] is the port of [Sandbox]; the plugin-daemon
    address given to [Main] and [Worker] is the port of [PluginDaemon],
    which is also the port the daemon is told to listen on; the inner API
    address given to [PluginDaemon] is the port of [Main]. *)
Theorem primary_loopback_endpoints :
  (∃ p, portOf "Sandbox" Primary = Some p ∧
        variableOf "Main" "CODE_EXECUTION_ENDPOINT" Primary = Some (localhost p) ∧
        variableOf "PluginDaemon" "CODE_EXECUTION_ENDPOINT" Primary =
          Some (localhost p)) ∧
  (∃ p, portOf "PluginDaemon" Primary = Some p ∧
        variableOf "Main" "PLUGIN_DAEMON_URL" Primary = Some (localhost p) ∧
        variableOf "Worker" "PLUGIN_API_URL" Primary = Some (localhost p) ∧
        variableOf "PluginDaemon" "SERVER_PORT" Primary =
          Some (Number_toString p)) ∧
  (∃ p, portOf "Main" Primary = Some p ∧
        variableOf "PluginDaemon" "DIFY_INNER_API_URL" Primary =
          Some (localhost p)).
Proof. repeat split; eexists; repeat split. Qed.

(** X6. The health check of [Main] and the health check of the load
    balancer probe the same thing: the container command fetches, on the
    port that [Main] maps and the load balancer targets, the path that the
    load balancer checks. *)
Theorem primary_health_checks_agree :
  ∃ p rule,
    portOf "Main" Primary = Some p ∧
    albServices Primary = [ rule ] ∧
    alb_port rule = p ∧
    (containerOf "Main" Primary ≫= fun c =>
       hc_command <$> healthCheck (options c)) =
      Some [ "CMD-SHELL";
             "curl -f " ++ localhost p ++ alb_healthCheckPath rule
               ++ " || exit 1" ] ∧
    (containerOf "Main" Primary ≫= fun c =>
       hc_command <$> healthCheck (options c)) =
      Some [ "CMD-SHELL";
             "curl -f http://localhost:5001/health || exit 1" ] ∧
    Forall (fun c => containerName c ≠ "Main" → healthCheck (options c) = None)
      (containers (taskDefinition Primary)).
Proof.
  eexists _, _. repeat (split; [ reflexivity | ]).
  rewrite ApiService_containers.
  repeat (apply Forall_cons; split; [ by intros | ]). apply Forall_nil_2.
Qed.

(** X7. A missing [debug] is [false].  [Main] and [Worker] always carry the
    same [LOG_LEVEL] and the same [DEBUG]: [DEBUG] and [true] when [debug]
    is true, [ERROR] and [false] otherwise. *)
Theorem primary_debug_variables :
  let on := default false (api.debug props) in
  variableOf "Main" "LOG_LEVEL" Primary =
    Some (if on then "DEBUG" else "ERROR") ∧
  variableOf "Main" "DEBUG" Primary = Some (if on then "true" else "false") ∧
  variableOf "Worker" "LOG_LEVEL" Primary =
    variableOf "Main" "LOG_LEVEL" Primary ∧
  variableOf "Worker" "DEBUG" Primary = variableOf "Main" "DEBUG" Primary ∧
  api.ApiService scope id (withDebug None props) =
    api.ApiService scope id (withDebug (Some false) props).
Proof. repeat split. Qed.
End PrimaryTask.

(** ** What each property of the primary's props reaches *)

(** Taking apart the membership of a key in an object literal, member by
    member. *)
Ltac members :=
  repeat match goal with
    | H : Exists _ (_ :: _) |- _ => apply Exists_cons in H as [H | H]
    | H : Exists _ [] |- _ => by apply Exists_nil in H
    | H : defines _ _ (KeyValue _ _) |- _ => destruct H as [<- <-]
    | H : defines _ _ (Spread _) |- _ =>
        cbn [defines] in H; apply lookup_objectLiteral_Some in H
    end.


Section PrimaryProps.
Variables (scope : Construct) (id : string) (props : api.ApiServiceProps).

Local Abbreviation Primary := (api.ApiService scope id props).


(** X9. [imageTag] selects the image of [Main] and [Worker], the same for
    both, and reaches nothing else in the task: the four other containers
    are the same whatever the tag.  The version handed to the build of the
    knowledge-base image is [sandboxImageTag]. *)
Theorem imageTag_reaches_main_and_worker (tag : string) :
  containersBut [ "Main"; "Worker" ]
      (api.ApiService scope id (withImageTag tag props)) =
    containersBut [ "Main"; "Worker" ] Primary ∧
  (fun c => image (options c)) <$> containerOf "Main" Primary =
    Some (fromRegistry ("langgenius/dify-api:" ++ api.imageTag props)) ∧
  (fun c => image (options c)) <$> containerOf "Worker" Primary =
    (fun c => image (options c)) <$> containerOf "Main" Primary ∧
  containerOf "ExternalKnowledgeBaseAPI" Primary ≫= buildArg "DIFY_VERSION" =
    Some (api.sandboxImageTag props).
Proof. repeat split. Qed.

(** X10. In every container of the task, no key is both a plain variable
    and a secret-backed variable. *)
Theorem primary_environment_and_secrets_disjoint :
  Forall
    (fun c => ∀ k, is_Some (environmentVariable k c) → secretVariable k c = None)
    (containers (taskDefinition Primary)).
Proof.
  rewrite ApiService_containers.
  repeat (apply Forall_cons; split); try apply Forall_nil_2;
    intros k [v Hv]; unfold environmentVariable in Hv;
    cbn [options environment mbind option_bind api.MainOptions
           api.WorkerOptions api.SandboxFileMountOptions
           api.SandboxOptions api.PluginDaemonOptions
           api.ExternalKnowledgeBaseAPIOptions] in Hv;
    try discriminate Hv;
    apply lookup_objectLiteral_Some in Hv;
    try destruct (api.allowAnySyscalls props);
    members; reflexivity.
Qed.

(** X11. The secrets of [Worker] are secrets of [Main], under the same
    keys; so are the secrets of [PluginDaemon] other than
    [DIFY_INNER_API_KEY] and [SERVER_KEY]. *)
Theorem primary_secrets_shared_with_main :
  ∃ main worker daemon,
    (containerOf "Main" Primary ≫= fun c => secrets (options c)) = Some main ∧
    (containerOf "Worker" Primary ≫= fun c => secrets (options c)) =
      Some worker ∧
    (containerOf "PluginDaemon" Primary ≫= fun c => secrets (options c)) =
      Some daemon ∧
    worker ⊆ main ∧
    delete "DIFY_INNER_API_KEY" (delete "SERVER_KEY" daemon) ⊆ main.
Proof.
  eexists _, _, _. repeat (split; [ reflexivity | ]).
  split; apply map_subseteq_spec; intros k v Hv.
  - apply lookup_objectLiteral_Some in Hv. members; reflexivity.
  - apply lookup_delete_Some in Hv as [Hk1 Hv].
    apply lookup_delete_Some in Hv as [Hk2 Hv].
    apply lookup_objectLiteral_Some in Hv. members; done.
Qed.

(** X12. The two images built from an asset directory are built for the
    architecture the task runs on. *)
Theorem primary_asset_images_match_architecture :
  length (assetPlatforms (taskDefinition Primary)) = 2%nat ∧
  Forall (fun p => runsOn p (cpuArchitecture (taskDefinition Primary)) = true)
    (assetPlatforms (taskDefinition Primary)).
Proof.
  split; [ reflexivity | ].
  repeat (apply Forall_cons; split; [ reflexivity | ]). apply Forall_nil_2.
Qed.
End PrimaryProps.

(** ** Numerals and strings *)


Lemma append_assoc (a b c : string) : (a ++ b) ++ c = a ++ (b ++ c).
Proof.
  induction a as [ | x a IH ]; [ reflexivity | ].
  change (String x ((a ++ b) ++ c) = String x (a ++ (b ++ c))).
  by rewrite IH.
Qed.

Lemma is_Some_lookup_define {V} (o : gmap string V) (m : Member V) (k : string) :
  definesKey k m ∨ is_Some (o !! k) → is_Some (define o m !! k).
Proof.
  destruct m as [k' v' | s]; cbn [define definesKey].
  - rewrite lookup_insert. case_decide; [ by eauto | ].
    intros [? | ?]; [ congruence | done ].
  - rewrite lookup_union_is_Some. tauto.
Qed.

(** A key that some member defines is a key of the object. *)
Lemma is_Some_lookup_objectLiteral {V} (ms : list (Member V)) (k : string) :
  Exists (definesKey k) ms → is_Some (objectLiteral ms !! k).
Proof.
  induction ms as [ | m ms IH ] using rev_ind.
  - intros H. by apply Exists_nil in H.
  - rewrite Exists_app, objectLiteral_snoc. intros [H | H].
    + apply is_Some_lookup_define. right. by apply IH.
    + apply is_Some_lookup_define. left.
      by apply Exists_cons in H as [H | H%Exists_nil].
Qed.



(** ** The console service next to the primary service *)

Section ConsoleNextToPrimary.
Variable AdditionalEnvironmentVariables : Type.
Variable getAdditionalEnvironmentVariables :
  Construct → string → AdditionalEnvironmentVariables → gmap string string.
Variable getAdditionalSecretVariables :
  Construct → string → AdditionalEnvironmentVariables → gmap string EcsSecret.
Variable serviceName : FargateService → string.

Variables (scope : Construct) (id : string).
Variable props : console.ConsoleServiceProps AdditionalEnvironmentVariables.
Variables (apiScope : Construct) (apiId : string).
Variable apiProps : api.ApiServiceProps.

Local Abbreviation this := (child scope id).
Local Abbreviation additional := (console.additionalEnvironmentVariables props).
Local Abbreviation Console :=
  (console.ConsoleService getAdditionalEnvironmentVariables
     getAdditionalSecretVariables serviceName scope id props).
Local Abbreviation Primary := (api.ApiService apiScope apiId apiProps).

(** X14. Without a custom repository and with the same tag, the console
    runs the image of the primary's [Main] container. *)
Theorem console_runs_the_primary_image :
  console.customRepository props = None →
  console.imageTag props = api.imageTag apiProps →
  (fun c => image (options c)) <$> containerOf "Main" Console =
    (fun c => image (options c)) <$> containerOf "Main" Primary ∧
  is_Some (containerOf "Main" Console).
Proof.
  intros Hrepo Htag. split; [ | by eexists ].
  change ((fun c => image (options c)) <$> containerOf "Main" Console)
    with (Some (match console.customRepository props with
                | Some repository =>
                    fromEcrRepository repository
                      ("dify-api_" ++ console.imageTag props)
                | None =>
                    fromRegistry ("langgenius/dify-api:" ++ console.imageTag props)
                end)).
  rewrite Hrepo, Htag. reflexivity.
Qed.

(** X15. Whatever the two helpers return, every variable that the console
    writes before its spreads is still a variable of [Main]: an override
    replaces values, it removes nothing. *)
Theorem console_fixed_variables_stay :
  Forall (fun k => is_Some (containerOf "Main" Console ≫= environmentVariable k))
    consoleFixedEnvironment ∧
  Forall (fun k => is_Some (containerOf "Main" Console ≫= secretVariable k))
    consoleFixedSecrets.
Proof.
  split.
  - change (Forall
              (fun k => is_Some
                 (environment
                    (console.MainOptions getAdditionalEnvironmentVariables
                       getAdditionalSecretVariables this props) ≫= (.!! k)))
              consoleFixedEnvironment).
    cbn [console.MainOptions environment mbind option_bind].
    unfold consoleFixedEnvironment.
    repeat (apply Forall_cons; split;
            [ apply is_Some_lookup_objectLiteral;
              repeat first [ apply Exists_cons_hd; exact eq_refl
                           | apply Exists_cons_tl ] | ]).
    apply Forall_nil_2.
  - change (Forall
              (fun k => is_Some
                 (secrets
                    (console.MainOptions getAdditionalEnvironmentVariables
                       getAdditionalSecretVariables this props) ≫= (.!! k)))
              consoleFixedSecrets).
    cbn [console.MainOptions secrets mbind option_bind].
    unfold consoleFixedSecrets.
    repeat (apply Forall_cons; split;
            [ apply is_Some_lookup_objectLiteral;
              repeat first [ apply Exists_cons_hd; exact eq_refl
                           | apply Exists_cons_tl ] | ]).
    apply Forall_nil_2.
Qed.

(** X16. When the two services are given the same load balancer, cache,
    database and bucket, the console's [Main] container runs in the
    context of the primary's: outside the keys that a helper returns, each
    of its plain variables other than [S3_USE_AWS_MANAGED_IAM], and each of
    its secret-backed variables, is a variable of the primary's [Main]
    with the same value. *)
Theorem console_shares_the_primary_context :
  console.alb props = api.alb apiProps →
  console.redis props = api.redis apiProps →
  console.postgres props = api.postgres apiProps →
  console.storageBucket props = api.storageBucket apiProps →
  (∀ k v,
     getAdditionalEnvironmentVariables this "api" additional !! k = None →
     k ≠ "S3_USE_AWS_MANAGED_IAM" →
     variableOf "Main" k Console = Some v →
     variableOf "Main" k Primary = Some v) ∧
  (∀ k w,
     getAdditionalSecretVariables this "api" additional !! k = None →
     slot Console ("Main", k) = Some w →
     slot Primary ("Main", k) = Some w).
Proof.
  intros Halb Hredis Hpostgres Hbucket. split; intros k v Hnone.
  - intros Hk Hv.
    change (variableOf "Main" k Console)
      with (environment
              (console.MainOptions getAdditionalEnvironmentVariables
                 getAdditionalSecretVariables this props) ≫= (.!! k)) in Hv.
    cbn [console.MainOptions environment mbind option_bind] in Hv.
    erewrite lookup_objectLiteral_spread_misses in Hv;
      [ | reflexivity | exact Hnone ].
    cbn [removelast] in Hv.
    rewrite ?Halb, ?Hredis, ?Hpostgres, ?Hbucket in Hv.
    apply lookup_objectLiteral_Some in Hv.
    members; first [ reflexivity | done ].
  - intros Hv.
    change (slot Console ("Main", k))
      with (secrets
              (console.MainOptions getAdditionalEnvironmentVariables
                 getAdditionalSecretVariables this props) ≫= (.!! k)) in Hv.
    cbn [console.MainOptions secrets mbind option_bind] in Hv.
    erewrite lookup_objectLiteral_spread_misses in Hv;
      [ | reflexivity | exact Hnone ].
    cbn [removelast] in Hv.
    rewrite ?Hredis, ?Hpostgres in Hv.
    apply lookup_objectLiteral_Some in Hv.
    members; reflexivity.
Qed.

(** X17. The console declares four outputs under distinct names.  The
    start and stop commands are the same command but for the count they
    set: 1 to start, and to stop the count the service is created with.
    The service allows commands to be executed in its containers, and the
    connect command names the one container of the task. *)
Theorem console_commands :
  map output_id (outputs Console) =
    [ "ConsoleStartServiceCommand"; "ConsoleStopServiceCommand";
      "ConsoleListTasksCommand"; "ConsoleConnectToTaskCommand" ] ∧
  NoDup (map output_id (outputs Console)) ∧
  (∃ base,
     outputOf "ConsoleStartServiceCommand" Console = Some (base ++ "1") ∧
     outputOf "ConsoleStopServiceCommand" Console =
       (fun count => base ++ Number_toString count) <$>
         desiredCount (service Console)) ∧
  enableExecuteCommand (service Console) = Some true ∧
  (∃ pre post main,
     containers (taskDefinition Console) = [ main ] ∧
     outputOf "ConsoleConnectToTaskCommand" Console =
       Some (pre ++ ("--container " ++ containerName main) ++ post)).
Proof.
  split; [ reflexivity | ].
  split; [ change (NoDup [ "ConsoleStartServiceCommand";
                           "ConsoleStopServiceCommand";
                           "ConsoleListTasksCommand";
                           "ConsoleConnectToTaskCommand" ]); compute_done | ].
  split; [ | split; [ reflexivity | ] ].
  - exists ("aws ecs update-service --region " ++ region (stackOf this)
            ++ " --cluster " ++ clusterName (console.cluster props)
            ++ " --service " ++ serviceName (service Console)
            ++ " --desired-count ").
    split.
    + rewrite !append_assoc. reflexivity.
    + cbn [desiredCount service console.ConsoleService fmap option_fmap
             option_map].
      rewrite !append_assoc. reflexivity.
  - exists ("aws ecs execute-command --region " ++ region (stackOf this)
            ++ " --cluster " ++ clusterName (console.cluster props) ++ " ").
    exists (" --interactive --command " ++ doubleQuote ++ "bash"
            ++ doubleQuote ++ " --task TASK_ID").
    eexists. split; [ reflexivity | ].
    rewrite !append_assoc. reflexivity.
Qed.
End ConsoleNextToPrimary.

(** ** The theorems of this part with a premise, on the sample deployment *)

Lemma console_runs_the_primary_image_sample :
  console.customRepository sample.consoleProps = None ∧
  console.imageTag sample.consoleProps = api.imageTag sample.apiProps ∧
  (fun c => image (options c)) <$> containerOf "Main" sample.maintenance =
    (fun c => image (options c)) <$> containerOf "Main" sample.primary ∧
  is_Some (containerOf "Main" sample.maintenance).
Proof.
  assert (Hrepo : console.customRepository sample.consoleProps = None)
    by reflexivity.
  assert (Htag : console.imageTag sample.consoleProps =
                 api.imageTag sample.apiProps)
    by reflexivity.
  split; [ exact Hrepo | ]. split; [ exact Htag | ].
  exact (console_runs_the_primary_image sample.AdditionalEnvironmentVariables
           sample.getAdditionalEnvironmentVariables
           sample.getAdditionalSecretVariables sample.serviceName
           sample.app "ConsoleService" sample.consoleProps
           sample.app "ApiService" sample.apiProps Hrepo Htag).
Defined.

Lemma console_shares_the_primary_context_sample :
  variableOf "Main" "REDIS_HOST" sample.maintenance = Some "redis.internal" ∧
  variableOf "Main" "REDIS_HOST" sample.primary = Some "redis.internal".
Proof.
  assert (Hv : variableOf "Main" "REDIS_HOST" sample.maintenance =
               Some "redis.internal")
    by reflexivity.
  split; [ exact Hv | ].
  exact (proj1
           (console_shares_the_primary_context
              sample.AdditionalEnvironmentVariables
              sample.getAdditionalEnvironmentVariables
              sample.getAdditionalSecretVariables sample.serviceName
              sample.app "ConsoleService" sample.consoleProps
              sample.app "ApiService" sample.apiProps
              eq_refl eq_refl eq_refl eq_refl)
           "REDIS_HOST" "redis.internal" eq_refl
           ltac:(discriminate) Hv).
Defined.

(** ** The two processes of the application image *)

(** X18. [Main] and [Worker] run the same application in two modes: their
    [MODE] differs, and every other plain variable of [Worker], but for
    [MIGRATION_ENABLED] and [PLUGIN_API_URL], is a variable of [Main] with
    the same value. *)
Theorem worker_environment_shared_with_main scope id props :
  variableOf "Main" "MODE" (api.ApiService scope id props) = Some "api" ∧
  variableOf "Worker" "MODE" (api.ApiService scope id props) = Some "worker" ∧
  ∃ main worker,
    (containerOf "Main" (api.ApiService scope id props) ≫= fun c =>
       environment (options c)) = Some main ∧
    (containerOf "Worker" (api.ApiService scope id props) ≫= fun c =>
       environment (options c)) = Some worker ∧
    delete "MODE"
      (delete "MIGRATION_ENABLED" (delete "PLUGIN_API_URL" worker)) ⊆ main.
Proof.
  split; [ reflexivity | ]. split; [ reflexivity | ].
  eexists _, _. repeat (split; [ reflexivity | ]).
  apply map_subseteq_spec; intros k v Hv.
  apply lookup_delete_Some in Hv as [Hk1 Hv].
  apply lookup_delete_Some in Hv as [Hk2 Hv].
  apply lookup_delete_Some in Hv as [Hk3 Hv].
  apply lookup_objectLiteral_Some in Hv. members; done.
Qed.
